(** * Podtext: the in-browser search widget ([docs/search.js])

    A shallow embedding of the script that drives the search box of the
    generated site: the one-shot load of [search.json], the [input]
    listener (length gate, filter, cap at ten, rendering) and the
    document-level [click] listener that dismisses the result panel.

    JavaScript strings are sequences of UTF-16 code units, JSON values are
    an inductive type, the page is a record that the handlers thread
    through a small state-and-exception monad. *)

From Stdlib Require Import NArith ZArith String Ascii DecimalString Lia.
From stdpp Require Import base option list.

Local Open Scope N_scope.
Local Open Scope nat_scope.

(** ** Strings *)

(** A UTF-16 code unit. *)
Definition code_unit := N.

(** A JavaScript string value; [length] is the [.length] property. *)
Abbreviation jsstring := (list code_unit).

(** An ASCII literal of the script, as a string value. *)
Definition lit (s : string) : jsstring :=
  (λ a, N_of_ascii a) <$> list_ascii_of_string s.

(** The double quote, U+0022. *)
Definition dquote : jsstring := [34%N].

(** Lowercasing of one code unit of the ASCII range: [A]..[Z] move to
    [a]..[z], every other code unit stays. *)
Definition ascii_lower (c : code_unit) : code_unit :=
  if ((65 <=? c) && (c <=? 90))%N then (c + 32)%N else c.

Definition is_ascii (c : code_unit) : Prop := (c < 128)%N.

(** [isPrefixOf q s]: the code units of [q] are the first ones of [s]. *)
Fixpoint isPrefixOf (q s : jsstring) : bool :=
  match q, s with
  | [], _ => true
  | _ :: _, [] => false
  | a :: q', b :: s' => bool_decide (a = b) && isPrefixOf q' s'
  end.

(** [String.prototype.includes]: [q] occurs in [s] at some position. *)
Fixpoint includes (s q : jsstring) : bool :=
  isPrefixOf q s ||
  match s with
  | [] => false
  | _ :: s' => includes s' q
  end.

(** ** The builtins the script relies on

    [String.prototype.toLowerCase] follows the Unicode case tables and
    [Number::toString] the floating point printing algorithm; neither is
    part of the script.  They are taken as an interface, with the two
    facts about lowercasing that the development uses: on ASCII text it
    is the code-unit-wise map of [ascii_lower], and it never makes a
    string shorter (a lowercase mapping sends one code point to one code
    point of the same plane, or to several). *)
Class Builtins := {
  number : Type;
  numberToString : number → jsstring;
  toLowerCase : jsstring → jsstring;
  toLowerCase_ascii (s : jsstring) :
    Forall is_ascii s → toLowerCase s = ascii_lower <$> s;
  toLowerCase_length (s : jsstring) :
    length s ≤ length (toLowerCase s)
}.

(** ** Exceptions and the handler monad *)

Inductive error := TypeError.

Inductive outcome (A : Type) :=
  | Ok (a : A)
  | Throw (e : error).
Arguments Ok {A} a.
Arguments Throw {A} e.

#[global] Instance outcome_ret : MRet outcome := λ A a, Ok a.
#[global] Instance outcome_bind : MBind outcome := λ A B f m,
  match m with
  | Ok a => f a
  | Throw e => Throw e
  end.

Section Script.
Context {B : Builtins}.

(** ** JSON values, as [response.json()] produces them *)

(** An object keeps its members as the payload lists them. *)
#[warnings="-register-all"]
Inductive json :=
  | JNull
  | JBool (b : bool)
  | JNum (n : number)
  | JStr (s : jsstring)
  | JArr (items : list json)
  | JObj (members : list (jsstring * json)).

(** The own property [k] of a parsed object: of several members with the
    same name, [JSON.parse] keeps the last. *)
Fixpoint own_property (members : list (jsstring * json)) (k : jsstring)
    : option json :=
  match members with
  | [] => None
  | (k', v) :: rest =>
      match own_property rest k with
      | Some w => Some w
      | None => if bool_decide (k' = k) then Some v else None
      end
  end.

(** A value read from a property: [None] is [undefined]. *)
Abbreviation value := (option json).

(** [item.k], for a key [k] that no builtin prototype defines (the script
    reads [title], [text], [url] and [feed]): reading a property of
    [null] throws, an object answers with its own property, every other
    JSON value answers [undefined]. *)
Definition get_prop (item : json) (k : jsstring) : outcome value :=
  match item with
  | JNull => Throw TypeError
  | JObj props => Ok (own_property props k)
  | _ => Ok None
  end.

(** [v.toLowerCase()]: only a string has the method; on [undefined] and
    [null] the property read throws, on any other JSON value the call
    does. *)
Definition call_toLowerCase (v : value) : outcome jsstring :=
  match v with
  | Some (JStr s) => Ok (toLowerCase s)
  | _ => Throw TypeError
  end.

(** [ToString] of a JSON value, as a template literal applies it.  An
    array is joined with commas, its [null] elements printing as the
    empty string.  A plain object prints as [[object Object]], unless it
    carries an own [toString] property: that property is JSON data, hence
    not callable, and the conversion to a primitive fails. *)
Fixpoint toString (v : json) : outcome jsstring :=
  match v with
  | JNull => Ok (lit "null")
  | JBool b => Ok (if b then lit "true" else lit "false")
  | JNum n => Ok (numberToString n)
  | JStr s => Ok s
  | JArr items =>
      (fix join (l : list json) : outcome jsstring :=
         match l with
         | [] => Ok []
         | x :: r =>
             sx ← match x with JNull => Ok [] | _ => toString x end;
             match r with
             | [] => Ok sx
             | _ :: _ => sr ← join r; Ok (sx ++ lit "," ++ sr)
             end
         end) items
  | JObj props =>
      match own_property props (lit "toString") with
      | Some _ => Throw TypeError
      | None => Ok (lit "[object Object]")
      end
  end.

(** [`${v}`] for a value that may be [undefined]. *)
Definition interpolate (v : value) : outcome jsstring :=
  match v with
  | None => Ok (lit "undefined")
  | Some j => toString j
  end.

(** ** The filter of the [input] listener (lines 22 to 25) *)

(** The callback given to [filter]:
    [item.title.toLowerCase().includes(query) ||
     item.text.toLowerCase().includes(query)]; the right operand of [||]
    is evaluated only when the left one is false. *)
Definition matches (query : jsstring) (item : json) : outcome bool :=
  t ← get_prop item (lit "title");
  tl ← call_toLowerCase t;
  if includes tl query then Ok true
  else
    x ← get_prop item (lit "text");
    xl ← call_toLowerCase x;
    Ok (includes xl query).

(** [Array.prototype.filter] with a callback that may throw: the
    elements are visited in order and the first exception aborts. *)
Fixpoint array_filter (f : json → outcome bool) (l : list json)
    : outcome (list json) :=
  match l with
  | [] => Ok []
  | x :: r =>
      b ← f x;
      r' ← array_filter f r;
      Ok (if b : bool then x :: r' else r')
  end.

(** [searchIndex.filter(...).slice(0, 10)]; [searchIndex] holds whatever
    the payload parsed to, and only an array has [filter]. *)
Definition search (searchIndex : json) (query : jsstring)
    : outcome (list json) :=
  match searchIndex with
  | JArr items => r ← array_filter (matches query) items; Ok (take 10 r)
  | _ => Throw TypeError
  end.

(** ** The page *)

(** A [div] made by [document.createElement]. *)
Record element := {
  className : jsstring;
  innerHTML : jsstring
}.

(** The result region [#search-results]: the markup last assigned to its
    [innerHTML], the children appended since, and its class list. *)
Record container := {
  markup : jsstring;
  children : list element;
  classList : list jsstring
}.

Inductive load_failure := NetworkError | MalformedPayload.

(** How the promise chain of [fetch('search.json')] settles. *)
Inductive load_result :=
  | Rejected (err : load_failure)
  | Parsed (data : json).

(** The state the script closes over.  [console] lists the calls of
    [console.error], [requests] the URLs given to [fetch], [pending]
    tells whether the promise chain is still to settle. *)
Record page := {
  searchIndex : json;
  resultsDiv : container;
  console : list (jsstring * load_failure);
  requests : list jsstring;
  pending : bool
}.

Definition with_resultsDiv (f : container → container) (p : page) : page :=
  {| searchIndex := searchIndex p; resultsDiv := f (resultsDiv p);
     console := console p; requests := requests p; pending := pending p |}.

(** A listener body: it may update the page and may throw. *)
Definition handler (A : Type) : Type := page → outcome A * page.

#[global] Instance handler_ret : MRet handler := λ A a p, (Ok a, p).
#[global] Instance handler_bind : MBind handler := λ A B f m p,
  match m p with
  | (Ok a, p') => f a p'
  | (Throw e, p') => (Throw e, p')
  end.

Definition lift {A} (o : outcome A) : handler A := λ p, (o, p).

Definition read_searchIndex : handler json := λ p, (Ok (searchIndex p), p).

Definition hidden : jsstring := lit "hidden".

(** [resultsDiv.classList.add(tok)]: a token already present is not
    added again. *)
Definition classList_add (tok : jsstring) : handler unit := λ p,
  (Ok (), with_resultsDiv (λ c,
     {| markup := markup c; children := children c;
        classList := if bool_decide (tok ∈ classList c) then classList c
                     else classList c ++ [tok] |}) p).

(** [resultsDiv.classList.remove(tok)]. *)
Definition classList_remove (tok : jsstring) : handler unit := λ p,
  (Ok (), with_resultsDiv (λ c,
     {| markup := markup c; children := children c;
        classList := filter (λ t, t ≠ tok) (classList c) |}) p).

(** [resultsDiv.innerHTML = s]: the former content, appended children
    included, is replaced. *)
Definition set_innerHTML (s : jsstring) : handler unit := λ p,
  (Ok (), with_resultsDiv (λ c,
     {| markup := s; children := []; classList := classList c |}) p).

(** [resultsDiv.appendChild(div)]. *)
Definition appendChild (div : element) : handler unit := λ p,
  (Ok (), with_resultsDiv (λ c,
     {| markup := markup c; children := children c ++ [div];
        classList := classList c |}) p).

(** [Array.prototype.forEach]. *)
Fixpoint forEach (f : json → handler unit) (l : list json) : handler unit :=
  match l with
  | [] => mret ()
  | x :: r => f x;; forEach f r
  end.

(** ** Rendering (lines 30 to 43) *)

Definition placeholder : jsstring :=
  lit "<div class=" ++ dquote ++ lit "no-results" ++ dquote
  ++ lit ">No results found</div>".

(** The template literal of line 38. *)
Definition result_markup (item : json) : outcome jsstring :=
  u ← get_prop item (lit "url") ≫= interpolate;
  t ← get_prop item (lit "title") ≫= interpolate;
  f ← get_prop item (lit "feed") ≫= interpolate;
  Ok (lit "<a href=" ++ dquote ++ u ++ dquote ++ lit ">" ++ t
      ++ lit "</a><span class=" ++ dquote ++ lit "search-feed" ++ dquote
      ++ lit ">" ++ f ++ lit "</span>").

(** The body of the [forEach] callback. *)
Definition render_item (item : json) : handler unit :=
  html ← lift (result_markup item);
  appendChild {| className := lit "search-result-item"; innerHTML := html |}.

Definition displayResults (results : list json) : handler unit :=
  set_innerHTML [];;
  (if length results =? 0 then set_innerHTML placeholder
   else forEach render_item results);;
  classList_remove hidden.

(** ** The listeners *)

(** The [input] listener (lines 14 to 28); [value] is [e.target.value]. *)
Definition on_input (value : jsstring) : handler unit :=
  let query := toLowerCase value in
  if length query <? 2 then
    classList_add hidden;;
    set_innerHTML []
  else
    idx ← read_searchIndex;
    results ← lift (search idx query);
    displayResults results.

(** What the [click] listener asks about [e.target]: the answers of
    [searchInput.contains] and [resultsDiv.contains]. *)
Record target := {
  in_searchInput : bool;
  in_resultsDiv : bool
}.

(** The [click] listener (lines 46 to 50). *)
Definition on_click (t : target) : handler unit :=
  if negb (in_searchInput t) && negb (in_resultsDiv t) then
    classList_add hidden
  else mret ().

(** ** Loading the index (lines 4 to 12) *)

(** The page once [DOMContentLoaded] has run the script: the index is
    the empty array, one [fetch] is under way; [host] is the result
    region as the host page declares it (the page is taken to declare
    both [#search-input] and [#search-results]). *)
Definition DOMContentLoaded (host : container) : page :=
  {| searchIndex := JArr []; resultsDiv := host; console := [];
     requests := [lit "search.json"]; pending := true |}.

(** The two ends of the promise chain: [searchIndex = data], or
    [console.error("Failed to load search index", err)]. *)
Definition fetch_settled (r : load_result) (p : page) : page :=
  match r with
  | Parsed data =>
      {| searchIndex := data; resultsDiv := resultsDiv p;
         console := console p; requests := requests p; pending := false |}
  | Rejected err =>
      {| searchIndex := searchIndex p; resultsDiv := resultsDiv p;
         console := console p ++ [(lit "Failed to load search index", err)];
         requests := requests p; pending := false |}
  end.

(** ** The event loop *)

Inductive event :=
  | InputEvent (value : jsstring)
  | ClickEvent (t : target)
  | FetchSettled (r : load_result).

(** One turn of the event loop.  An exception that leaves a listener is
    reported by the browser and the page lives on; a promise settles at
    most once. *)
Definition dispatch (p : page) (e : event) : page :=
  match e with
  | InputEvent v => (on_input v p).2
  | ClickEvent t => (on_click t p).2
  | FetchSettled r => if pending p then fetch_settled r p else p
  end.

Definition run (p : page) (es : list event) : page := foldl dispatch p es.

(** The style sheet of the site does not display an element of class
    [hidden]. *)
Definition is_hidden (c : container) : bool :=
  bool_decide (hidden ∈ classList c).

End Script.

(** ** Vocabulary of the specification *)

Section Vocabulary.
Context {B : Builtins}.

(** The string held by field [k] of an entry, if the entry is an object
    and the field is a string. *)
Definition string_field (item : json) (k : jsstring) : option jsstring :=
  match item with
  | JObj props =>
      match own_property props k with
      | Some (JStr s) => Some s
      | _ => None
      end
  | _ => None
  end.

(** Field [k] of an entry is missing. *)
Definition missing_field (item : json) (k : jsstring) : Prop :=
  match item with
  | JObj props => own_property props k = None
  | _ => False
  end.

(** A document with string [title] and [text] fields. *)
Definition searchable (item : json) : Prop :=
  is_Some (string_field item (lit "title")) ∧
  is_Some (string_field item (lit "text")).

(** Field [k] of an entry is a string or is missing. *)
Definition string_or_missing (item : json) (k : jsstring) : Prop :=
  is_Some (string_field item k) ∨ missing_field item k.

(** The containment predicate of the specification: the lowercased title
    or the lowercased text contains [q]. *)
Definition contains_query (q : jsstring) (item : json) : bool :=
  match string_field item (lit "title"), string_field item (lit "text") with
  | Some t, Some x => includes (toLowerCase t) q || includes (toLowerCase x) q
  | _, _ => false
  end.

(** The first at most ten documents of [I], in the order of [I], that
    satisfy the containment predicate for the lowercased [q]. *)
Definition first_ten_matches (I : list json) (q : jsstring) : list json :=
  take 10 (filter (λ d, contains_query (toLowerCase q) d = true) I).

(** The number of documents of [pre] that satisfy the predicate. *)
Definition matches_before (q : jsstring) (pre : list json) : nat :=
  length (filter (λ d, contains_query (toLowerCase q) d = true) pre).

(** What is shown for a field that is a string or is missing. *)
Definition shown (item : json) (k : jsstring) : jsstring :=
  default (lit "undefined") (string_field item k).

(** The markup of one result entry:
    an [a] element to [url] with [title] as its text, followed by a
    [span] of class [search-feed] around [feed]. *)
Definition entry_html (url title feed : jsstring) : jsstring :=
  lit "<a href=" ++ dquote ++ url ++ dquote ++ lit ">" ++ title
  ++ lit "</a><span class=" ++ dquote ++ lit "search-feed" ++ dquote
  ++ lit ">" ++ feed ++ lit "</span>".

Definition entry_of (item : json) : element :=
  {| className := lit "search-result-item";
     innerHTML := entry_html (shown item (lit "url"))
                             (shown item (lit "title"))
                             (shown item (lit "feed")) |}.

(** The entries that [forEach] appends for [items], with the outcome of
    the loop: it stops at the first entry whose markup cannot be built. *)
Fixpoint rendered (items : list json) : outcome unit * list element :=
  match items with
  | [] => (Ok (), [])
  | x :: r =>
      match result_markup x with
      | Ok html =>
          ((rendered r).1,
           {| className := lit "search-result-item"; innerHTML := html |}
           :: (rendered r).2)
      | Throw e => (Throw e, [])
      end
  end.

(** The page with another index. *)
Definition with_searchIndex (idx : json) (p : page) : page :=
  {| searchIndex := idx; resultsDiv := resultsDiv p;
     console := console p; requests := requests p; pending := pending p |}.

(** An event of the user, as opposed to the settlement of the fetch. *)
Definition user_event (e : event) : Prop :=
  match e with
  | FetchSettled _ => False
  | _ => True
  end.

(** What the script keeps apart from the result region. *)
Definition script_state (p : page)
    : json * list (jsstring * load_failure) * list jsstring * bool :=
  (searchIndex p, console p, requests p, pending p).

(** The page with its result region emptied and hidden. *)
Definition cleared_and_hidden (p : page) : page :=
  with_resultsDiv (λ c,
    {| markup := []; children := [];
       classList := if bool_decide (hidden ∈ classList c) then classList c
                    else classList c ++ [hidden] |}) p.

(** The page after the events [before] of the user and then the failure
    [err] of the load. *)
Definition after_failure (host : container) (before : list event)
    (err : load_failure) : page :=
  run (DOMContentLoaded host) (before ++ [FetchSettled (Rejected err)]).

(** A letter of the ASCII range. *)
Definition is_letter (c : code_unit) : Prop :=
  (65 ≤ c ∧ c ≤ 90 ∨ 97 ≤ c ∧ c ≤ 122)%N.

(** A document of the index with its four fields. *)
Definition document (title text url feed : jsstring) : json :=
  JObj [(lit "title", JStr title); (lit "text", JStr text);
        (lit "url", JStr url); (lit "feed", JStr feed)].

End Vocabulary.

(** ** A concrete instance: ASCII text and integer numbers

    Lowercasing is the code-unit-wise map of [ascii_lower], which is what
    [toLowerCase] does on ASCII text; numbers are integers, printed in
    decimal.  The examples run the script on it. *)

#[global] Instance ascii_builtins : Builtins := {|
  number := Z;
  numberToString := λ z, lit (NilZero.string_of_int (Z.to_int z));
  toLowerCase := fmap ascii_lower;
  toLowerCase_ascii := λ s _, eq_refl;
  toLowerCase_length := λ s,
    eq_ind_r (λ n, length s ≤ n) (le_n _) (length_fmap ascii_lower s)
|}.

#[global] Instance searchable_dec `{Builtins} (d : json) :
  Decision (searchable d) := and_dec _ _.

#[global] Instance missing_field_dec `{Builtins} (d : json) (k : jsstring) :
  Decision (missing_field d k) :=
  match d with
  | JObj props => decide (own_property props k = None)
  | _ => right (λ H, H)
  end.

#[global] Instance string_or_missing_dec `{Builtins} (d : json)
    (k : jsstring) : Decision (string_or_missing d k) := or_dec _ _.

(** ** Sample pages *)

(** A result region as a host page may declare it. *)
Definition host0 : container :=
  {| markup := []; children := [];
     classList := [lit "search-results"; hidden] |}.

(** The page once [search.json] has loaded with the entries [I]. *)
Definition loaded (I : list json) : page :=
  run (DOMContentLoaded host0) [FetchSettled (Parsed (JArr I))].

Definition episode_one : json :=
  document (lit "Episode One") (lit "discusses cats") (lit "/e1")
           (lit "ShowA").

(** An entry without [title]. *)
Definition untitled : json :=
  JObj [(lit "text", JStr (lit "discusses cats"));
        (lit "url", JStr (lit "/e2")); (lit "feed", JStr (lit "ShowA"))].

(** An entry without [feed]. *)
Definition unlabelled : json :=
  JObj [(lit "title", JStr (lit "Cat tales"));
        (lit "text", JStr (lit "more cats")); (lit "url", JStr (lit "/e3"))].

(** Episodes [The a], [The b], ...: each one matches the query [the]. *)
Definition the_episode (i : nat) : json :=
  document (lit "The " ++ [(97 + N.of_nat i)%N]) (lit "talk") (lit "/e")
           (lit "ShowA").

Definition the_episodes (n : nat) : list json := the_episode <$> seq 0 n.

(** An entry whose [url] is an object with a member named [toString]:
    it passes the filter and cannot be put into the template. *)
Definition stubborn : json :=
  JObj [(lit "title", JStr (lit "Cat naps")); (lit "text", JStr (lit "zzz"));
        (lit "url", JObj [(lit "toString", JNull)]);
        (lit "feed", JStr (lit "ShowA"))].

(** An entry found by its title although it has no [text]. *)
Definition textless : json :=
  JObj [(lit "title", JStr (lit "Cats at large"));
        (lit "url", JStr (lit "/e4")); (lit "feed", JStr (lit "ShowB"))].

(** ** Decidable equality of outcomes *)

#[global] Instance error_eq_dec : EqDecision error.
Proof. solve_decision. Defined.

#[global] Instance outcome_eq_dec {A} `{EqDecision A} :
  EqDecision (outcome A).
Proof. solve_decision. Defined.

(** ** What holds of every page the script can reach *)

Section Reachable.
Context {B : Builtins}.

(** One request has been made; while it is under way the index is empty
    and nothing is logged; once it has settled, either nothing is logged,
    or one failure is and the index is still empty. *)
Definition load_invariant (p : page) : Prop :=
  requests p = [lit "search.json"] ∧
  (pending p = true → searchIndex p = JArr [] ∧ console p = []) ∧
  (pending p = false →
     console p = [] ∨
     ∃ err, console p = [(lit "Failed to load search index", err)] ∧
            searchIndex p = JArr []).

(** The [div] that holds the markup [html] of an entry. *)
Definition result_item (html : jsstring) : element :=
  {| className := lit "search-result-item"; innerHTML := html |}.

End Reachable.

(** ** Properties *)

Section Properties.
Context {B : Builtins}.

Lemma isPrefixOf_spec (q s : jsstring) :
  isPrefixOf q s = true ↔ ∃ post, s = q ++ post.
Proof.
  revert s. induction q as [|a q IH]; intros s; simpl.
  - split; [eauto | done].
  - destruct s as [|b s].
    + split; [done | intros [post Hp]; discriminate].
    + rewrite andb_true_iff, bool_decide_eq_true, IH. split.
      * intros [-> [post ->]]. eauto.
      * intros [post [= -> ->]]. eauto.
Qed.

(** [includes] is substring containment. *)
Lemma includes_spec (s q : jsstring) :
  includes s q = true ↔ ∃ pre post, s = pre ++ q ++ post.
Proof.
  induction s as [|b s IH]; simpl.
  - rewrite orb_false_r, isPrefixOf_spec. split.
    + intros [post ->]. by exists [], post.
    + intros (pre & post & H). destruct pre; [by exists post |discriminate].
  - rewrite orb_true_iff, isPrefixOf_spec, IH. split.
    + intros [[post ->] | (pre & post & ->)].
      * by exists [], post.
      * by exists (b :: pre), post.
    + intros (pre & post & H). destruct pre as [|c pre].
      * left. by exists post.
      * simpl in H. injection H as -> ->. right. eauto.
Qed.

(** On a document with string title and text the callback of the filter
    returns without throwing, and its answer is the containment
    predicate. *)
Lemma matches_searchable (query : jsstring) (item : json) :
  searchable item → matches query item = Ok (contains_query query item).
Proof.
  intros [[t Ht] [x Hx]]. unfold contains_query. rewrite Ht, Hx.
  unfold matches. destruct item as [| | | | |props]; try done.
  simpl in *.
  destruct (own_property props (lit "title")) as [[]|]; try done.
  destruct (own_property props (lit "text")) as [[]|]; try done.
  simplify_eq. simpl. by destruct (includes (toLowerCase t) query).
Qed.

Lemma array_filter_searchable (query : jsstring) (I : list json) :
  Forall searchable I →
  array_filter (matches query) I
  = Ok (filter (λ d, contains_query query d = true) I).
Proof.
  induction 1 as [|d I Hd _ IH]; [done|].
  simpl. rewrite (matches_searchable _ _ Hd). simpl. rewrite IH. simpl.
  destruct (contains_query query d) eqn:E.
  - by rewrite filter_cons_True.
  - rewrite filter_cons_False; [done | congruence].
Qed.

(** The query of a searchable index, for a lowercased query that passes
    the gate. *)
Lemma search_searchable (I : list json) (q : jsstring) :
  Forall searchable I →
  search (JArr I) (toLowerCase q) = Ok (first_ten_matches I q).
Proof.
  intros HI. unfold search. by rewrite array_filter_searchable.
Qed.

(** *** The handlers, step by step *)

Lemma with_resultsDiv_same (p : page) :
  with_resultsDiv (λ c, {| markup := markup c; children := children c ++ [];
                           classList := classList c |}) p = p.
Proof. destruct p as [idx [m ch cl] co rq pe]. cbv [with_resultsDiv]. simpl.
  by rewrite app_nil_r. Qed.

Lemma forEach_render_item (items : list json) (p : page) :
  forEach render_item items p
  = ((rendered items).1,
     with_resultsDiv (λ c, {| markup := markup c;
                              children := children c ++ (rendered items).2;
                              classList := classList c |}) p).
Proof.
  revert p. induction items as [|x r IH]; intros p; simpl.
  - by rewrite with_resultsDiv_same.
  - unfold mbind, handler_bind, render_item, lift at 1.
    unfold mbind, handler_bind at 1.
    destruct (result_markup x) as [html|e]; simpl.
    + rewrite IH. unfold with_resultsDiv; simpl. by rewrite <-app_assoc.
    + by rewrite with_resultsDiv_same.
Qed.

(** [displayResults] replaces the content of the region and, unless an
    entry failed to render, removes the [hidden] class. *)
Lemma displayResults_eq (results : list json) (p : page) :
  displayResults results p
  = ((rendered results).1,
     with_resultsDiv (λ c,
       {| markup := if length results =? 0 then placeholder else [];
          children := (rendered results).2;
          classList := match (rendered results).1 with
                       | Ok _ => filter (λ t, t ≠ hidden) (classList c)
                       | Throw _ => classList c
                       end |}) p).
Proof.
  unfold displayResults, mbind, handler_bind, set_innerHTML at 1. simpl.
  destruct results as [|x r].
  - done.
  - change (length (x :: r) =? 0) with false. cbv iota.
    rewrite forEach_render_item.
    destruct (rendered (x :: r)).1 as [[]|]; reflexivity.
Qed.

Lemma on_input_gated (v : jsstring) (p : page) :
  length (toLowerCase v) < 2 →
  on_input v p = (Ok (), cleared_and_hidden p).
Proof.
  intros Hlen. unfold on_input.
  destruct (Nat.ltb_spec (length (toLowerCase v)) 2); [done | lia].
Qed.

Lemma on_input_open (v : jsstring) (p : page) :
  2 ≤ length (toLowerCase v) →
  on_input v p
  = match search (searchIndex p) (toLowerCase v) with
    | Ok results => displayResults results p
    | Throw e => (Throw e, p)
    end.
Proof.
  intros Hlen. unfold on_input.
  destruct (Nat.ltb_spec (length (toLowerCase v)) 2); [lia|].
  unfold mbind, handler_bind, read_searchIndex, lift. simpl.
  by destruct (search (searchIndex p) (toLowerCase v)).
Qed.

Lemma on_input_searchIndex (v : jsstring) (p : page) :
  searchIndex (on_input v p).2 = searchIndex p.
Proof.
  destruct (Nat.lt_ge_cases (length (toLowerCase v)) 2) as [Hlen|Hlen].
  - by rewrite on_input_gated.
  - rewrite on_input_open by done.
    destruct (search (searchIndex p) (toLowerCase v)); [|done].
    by rewrite displayResults_eq.
Qed.

Lemma on_click_searchIndex (t : target) (p : page) :
  searchIndex (on_click t p).2 = searchIndex p.
Proof.
  unfold on_click. by destruct (negb (in_searchInput t) && negb (in_resultsDiv t)).
Qed.

Lemma hidden_after_add (l : list jsstring) :
  hidden ∈ (if bool_decide (hidden ∈ l) then l else l ++ [hidden]).
Proof.
  destruct (decide (hidden ∈ l)) as [Hin|Hout].
  - by rewrite bool_decide_eq_true_2.
  - rewrite bool_decide_eq_false_2 by done. apply elem_of_app. right.
    apply list_elem_of_singleton. done.
Qed.

Lemma hidden_after_remove (l : list jsstring) :
  hidden ∉ filter (λ t, t ≠ hidden) l.
Proof. rewrite list_elem_of_filter. intros [Hne _]. by apply Hne. Qed.

Lemma run_user_events_searchIndex (p : page) (es : list event) :
  Forall user_event es → searchIndex (run p es) = searchIndex p.
Proof.
  intros Hes. revert p. unfold run.
  induction Hes as [|e es He _ IH]; intros p; [done|].
  simpl. rewrite IH. destruct e as [v|t|r]; simpl.
  - apply on_input_searchIndex.
  - apply on_click_searchIndex.
  - done.
Qed.

(** *** The selection *)

Lemma not_elem_of_by_title (d : json) (l : list json) :
  string_field d (lit "title")
    ∉ (λ x, string_field x (lit "title")) <$> l →
  d ∉ l.
Proof.
  intros Hout Hin. apply Hout.
  by apply (list_elem_of_fmap_2 (λ x, string_field x (lit "title"))).
Qed.

Lemma first_ten_matches_length (I : list json) (q : jsstring) :
  length (first_ten_matches I q) ≤ 10.
Proof. unfold first_ten_matches. rewrite length_take. lia. Qed.

Lemma first_ten_matches_sound (I : list json) (q : jsstring) (d : json) :
  d ∈ first_ten_matches I q →
  d ∈ I ∧ contains_query (toLowerCase q) d = true.
Proof.
  intros Hd. apply subseteq_take in Hd.
  apply list_elem_of_filter in Hd. tauto.
Qed.

Lemma first_ten_matches_sublist (I : list json) (q : jsstring) :
  first_ten_matches I q `sublist_of` I.
Proof.
  unfold first_ten_matches. etrans; [apply sublist_take|].
  apply sublist_filter.
Qed.

(** The occurrence of a matching document after [pre] is selected when
    fewer than ten documents of [pre] match; it then sits at the rank
    given by the number of earlier matches. *)
Lemma first_ten_matches_kept (pre post : list json) (d : json) (q : jsstring) :
  contains_query (toLowerCase q) d = true →
  matches_before q pre < 10 →
  first_ten_matches (pre ++ d :: post) q !! matches_before q pre = Some d.
Proof.
  intros Hd Hlt. unfold first_ten_matches, matches_before in *.
  rewrite lookup_take_lt by done.
  rewrite filter_app, filter_cons_True by done.
  by rewrite list_lookup_middle.
Qed.

(** With ten matches or more in [pre], the selection is taken from [pre]
    alone: what follows is cut off. *)
Lemma first_ten_matches_cut (pre post : list json) (q : jsstring) :
  10 ≤ matches_before q pre →
  first_ten_matches (pre ++ post) q = first_ten_matches pre q.
Proof.
  intros Hge. unfold first_ten_matches, matches_before in *.
  rewrite filter_app. by rewrite take_app_le.
Qed.

(** *** The length gate *)

(** C3. For every index and every raw input whose lowercased form has
    fewer than two code units, the [input] listener returns normally, the
    region is left with no content at all (no entry is shown), the
    region is hidden, and the index plays no part: with any other value
    in [searchIndex] the outcome and the page are the same. *)
Theorem short_query_clears_and_hides (v : jsstring) (p : page) :
  length (toLowerCase v) < 2 →
  (on_input v p).1 = Ok () ∧
  markup (resultsDiv (on_input v p).2) = [] ∧
  children (resultsDiv (on_input v p).2) = [] ∧
  is_hidden (resultsDiv (on_input v p).2) = true ∧
  ∀ idx : json,
    on_input v (with_searchIndex idx p)
    = (Ok (), with_searchIndex idx (on_input v p).2).
Proof.
  intros Hlen. rewrite on_input_gated by done. simpl.
  repeat split.
  - unfold is_hidden. apply bool_decide_eq_true_2, hidden_after_add.
  - intros idx. by rewrite on_input_gated.
Qed.

(** *** The first ten matches *)

(** C1, as amended. For every index of documents with string title and
    text and every query of length at least two, the query returns the
    first at most ten documents of the index, in index order, whose
    lowercased title or lowercased text contains the lowercased query,
    and the listener renders those.  Every returned document is in the
    index and satisfies the predicate; a matching document is left out
    only if at least ten earlier documents match too (with fewer, it is
    returned, at the rank given by the number of earlier matches; with
    ten or more, the result is made of earlier documents only); the
    returned documents keep the order they have in the index. *)
Theorem search_returns_first_ten (I : list json) (q : jsstring) (p : page) :
  Forall searchable I →
  2 ≤ length q →
  searchIndex p = JArr I →
  search (searchIndex p) (toLowerCase q) = Ok (first_ten_matches I q) ∧
  on_input q p = displayResults (first_ten_matches I q) p ∧
  length (first_ten_matches I q) ≤ 10 ∧
  (∀ d, d ∈ first_ten_matches I q →
        d ∈ I ∧ contains_query (toLowerCase q) d = true) ∧
  (∀ pre d post,
      I = pre ++ d :: post →
      contains_query (toLowerCase q) d = true →
      (matches_before q pre < 10 →
         first_ten_matches I q !! matches_before q pre = Some d) ∧
      (d ∉ first_ten_matches I q → 10 ≤ matches_before q pre) ∧
      (10 ≤ matches_before q pre →
         first_ten_matches I q = first_ten_matches pre q)) ∧
  first_ten_matches I q `sublist_of` I.
Proof.
  intros HI Hlen Hidx.
  assert (2 ≤ length (toLowerCase q)) as Hgate
    by (pose proof (toLowerCase_length q); lia).
  rewrite on_input_open, Hidx, search_searchable by done.
  split_and!; try done.
  - apply first_ten_matches_length.
  - apply first_ten_matches_sound.
  - intros pre d post -> Hd. split_and!.
    + by apply first_ten_matches_kept.
    + intros Hout. destruct (Nat.lt_ge_cases (matches_before q pre) 10)
        as [Hlt|Hge]; [|done].
      destruct Hout. eapply list_elem_of_lookup_2.
      by apply first_ten_matches_kept.
    + by apply first_ten_matches_cut.
  - apply first_ten_matches_sublist.
Qed.

(** *** Entries with missing fields *)

Lemma interpolate_string (item : json) (k s : jsstring) :
  string_field item k = Some s →
  get_prop item k ≫= interpolate = Ok s.
Proof.
  destruct item as [| | | | |props]; try done. simpl.
  destruct (own_property props (k)) as [[]|]; try done. by intros [= ->].
Qed.

Lemma interpolate_missing (item : json) (k : jsstring) :
  missing_field item k →
  get_prop item k ≫= interpolate = Ok (lit "undefined").
Proof.
  destruct item as [| | | | |props]; try done. simpl. by intros ->.
Qed.

Lemma shown_missing (item : json) (k : jsstring) :
  missing_field item k → shown item k = lit "undefined".
Proof.
  destruct item as [| | | | |props]; try done. unfold shown. simpl.
  by intros ->.
Qed.

Lemma interpolate_shown (item : json) (k : jsstring) :
  string_or_missing item k →
  get_prop item k ≫= interpolate = Ok (shown item k).
Proof.
  intros [[s Hs] | Hm].
  - unfold shown. rewrite Hs. by apply interpolate_string.
  - rewrite shown_missing by done. by apply interpolate_missing.
Qed.

Lemma result_markup_shown (item : json) :
  string_or_missing item (lit "url") →
  string_or_missing item (lit "title") →
  string_or_missing item (lit "feed") →
  result_markup item = Ok (innerHTML (entry_of item)).
Proof.
  intros Hu Ht Hf. unfold result_markup.
  by rewrite !interpolate_shown.
Qed.

Lemma rendered_shown (results : list json) :
  Forall (λ d, string_or_missing d (lit "url") ∧
               string_or_missing d (lit "title") ∧
               string_or_missing d (lit "feed")) results →
  rendered results = (Ok (), entry_of <$> results).
Proof.
  induction 1 as [|d r (Hu & Ht & Hf) _ IH]; [done|].
  simpl. rewrite result_markup_shown by done. by rewrite IH.
Qed.

(** The filter throws as soon as its callback throws on one entry. *)
Lemma array_filter_throws (f : json → outcome bool) (I : list json) :
  Exists (λ d, f d = Throw TypeError) I →
  array_filter f I = Throw TypeError.
Proof.
  induction 1 as [d I Hd | d I _ IH]; simpl.
  - by rewrite Hd.
  - destruct (f d) as [b|[]]; [|done]. simpl. by rewrite IH.
Qed.

Lemma matches_missing_title (query : jsstring) (d : json) :
  missing_field d (lit "title") → matches query d = Throw TypeError.
Proof.
  destruct d as [| | | | |props]; try done. simpl. unfold matches. simpl.
  by intros ->.
Qed.

Lemma matches_missing_text (query : jsstring) (d : json) :
  missing_field d (lit "text") →
  (∀ t, string_field d (lit "title") = Some t →
        includes (toLowerCase t) query = false) →
  matches query d = Throw TypeError.
Proof.
  destruct d as [| | | | |props]; try done. simpl. unfold matches. simpl.
  intros -> Ht.
  destruct (own_property props (lit "title")) as [[| | |t| |]|]; try done.
  simpl. by rewrite (Ht t).
Qed.

(** C2, as amended. For every index and every query of length at least
    two: when every entry has string title and text, and its url and
    feed are each a string or missing, the listener returns normally and
    renders the selected entries, a missing url or feed showing as the
    text [undefined]; when an entry lacks its title, or lacks its text
    while its title does not contain the query, the listener throws a
    [TypeError] and leaves the page as it was. *)
Theorem missing_field_behaviour (I : list json) (q : jsstring) (p : page) :
  searchIndex p = JArr I →
  2 ≤ length q →
  (Forall searchable I →
   Forall (λ d, string_or_missing d (lit "url") ∧
                string_or_missing d (lit "feed")) I →
     (on_input q p).1 = Ok () ∧
     children (resultsDiv (on_input q p).2)
     = entry_of <$> first_ten_matches I q ∧
     ∀ d k, missing_field d k → shown d k = lit "undefined") ∧
  (Exists (λ d, missing_field d (lit "title")) I →
     on_input q p = (Throw TypeError, p)) ∧
  (Exists (λ d, missing_field d (lit "text") ∧
                ∀ t, string_field d (lit "title") = Some t →
                     includes (toLowerCase t) (toLowerCase q) = false) I →
     on_input q p = (Throw TypeError, p)).
Proof.
  intros Hidx Hlen.
  assert (2 ≤ length (toLowerCase q)) as Hgate
    by (pose proof (toLowerCase_length q); lia).
  rewrite on_input_open, Hidx by done. split_and!.
  - intros HI Hshow. rewrite search_searchable by done.
    rewrite displayResults_eq. rewrite rendered_shown.
    + split_and!; try done. intros d k. apply shown_missing.
    + apply Forall_forall. intros d Hd.
      apply first_ten_matches_sound in Hd as [Hd _].
      rewrite Forall_forall in HI, Hshow.
      destruct (HI d Hd) as [Ht _], (Hshow d Hd) as [Hu Hf].
      split_and!; try done. by left.
  - intros Hex. unfold search. rewrite array_filter_throws; [done|].
    eapply Exists_impl; [exact Hex|]. intros d. apply matches_missing_title.
  - intros Hex. unfold search. rewrite array_filter_throws; [done|].
    eapply Exists_impl; [exact Hex|]. intros d [Hx Ht].
    by apply matches_missing_text.
Qed.

(** *** The markup of an entry *)

(** C10. The markup of a rendered entry is the template with the url,
    the title and the feed of the document put in as they convert to
    strings, nothing escaped: a string field goes in code unit for code
    unit, a missing field goes in as the text [undefined].  The listener
    appends one [div] of class [search-result-item] per result, holding
    that markup. *)
Theorem entry_markup_interpolates_verbatim (item : json) :
  (∀ html, result_markup item = Ok html ↔
     ∃ u t f,
       get_prop item (lit "url") ≫= interpolate = Ok u ∧
       get_prop item (lit "title") ≫= interpolate = Ok t ∧
       get_prop item (lit "feed") ≫= interpolate = Ok f ∧
       html = lit "<a href=" ++ dquote ++ u ++ dquote ++ lit ">" ++ t
              ++ lit "</a><span class=" ++ dquote ++ lit "search-feed"
              ++ dquote ++ lit ">" ++ f ++ lit "</span>") ∧
  (∀ k s, string_field item k = Some s →
          get_prop item k ≫= interpolate = Ok s) ∧
  (∀ k, missing_field item k →
        get_prop item k ≫= interpolate = Ok (lit "undefined")) ∧
  (∀ results p,
     Forall (λ d, string_or_missing d (lit "url") ∧
                  string_or_missing d (lit "title") ∧
                  string_or_missing d (lit "feed")) results →
     (displayResults results p).1 = Ok () ∧
     children (resultsDiv (displayResults results p).2)
     = (λ d, {| className := lit "search-result-item";
                innerHTML := entry_html (shown d (lit "url"))
                                        (shown d (lit "title"))
                                        (shown d (lit "feed")) |})
       <$> results).
Proof.
  split_and!.
  - intros html. unfold result_markup.
    destruct (get_prop item (lit "url") ≫= interpolate) as [u|e];
    destruct (get_prop item (lit "title") ≫= interpolate) as [t|e'];
    destruct (get_prop item (lit "feed") ≫= interpolate) as [f|e''];
      simpl; (split; [try done | intros (?&?&?&?&?&?&?); by simplify_eq]).
    intros [= <-]. by exists u, t, f.
  - intros k s. apply interpolate_string.
  - intros k. apply interpolate_missing.
  - intros results p Hres. rewrite displayResults_eq.
    by rewrite rendered_shown.
Qed.

(** *** The empty index *)

(** C4. With an empty index, every query of length at least two selects
    nothing, the listener returns normally, the region holds the
    placeholder markup and nothing else, and the region is visible.  The
    index is empty in particular as long as the fetch has not settled,
    whatever the user does in the meantime. *)
Theorem empty_index_placeholder (q : jsstring) (p : page) :
  searchIndex p = JArr [] →
  2 ≤ length q →
  search (searchIndex p) (toLowerCase q) = Ok [] ∧
  (on_input q p).1 = Ok () ∧
  markup (resultsDiv (on_input q p).2) = placeholder ∧
  children (resultsDiv (on_input q p).2) = [] ∧
  is_hidden (resultsDiv (on_input q p).2) = false ∧
  ∀ host es, Forall user_event es →
             searchIndex (run (DOMContentLoaded host) es) = JArr [].
Proof.
  intros Hidx Hlen.
  assert (2 ≤ length (toLowerCase q)) as Hgate
    by (pose proof (toLowerCase_length q); lia).
  rewrite on_input_open by done. rewrite Hidx. simpl.
  split_and!; try done.
  - unfold is_hidden. apply bool_decide_eq_false_2, hidden_after_remove.
  - intros host es Hes. by rewrite run_user_events_searchIndex.
Qed.

(** *** Dismissal *)

(** C6. A click whose target is neither the input control nor inside
    the result region hides the region and leaves its content as it is;
    a click on the input control or inside the region changes nothing. *)
Theorem click_outside_hides (t : target) (p : page) :
  (in_searchInput t = false ∧ in_resultsDiv t = false →
     (on_click t p).1 = Ok () ∧
     is_hidden (resultsDiv (on_click t p).2) = true ∧
     markup (resultsDiv (on_click t p).2) = markup (resultsDiv p) ∧
     children (resultsDiv (on_click t p).2) = children (resultsDiv p)) ∧
  (in_searchInput t = true ∨ in_resultsDiv t = true →
     on_click t p = (Ok (), p)).
Proof.
  unfold on_click. split.
  - intros [-> ->]. simpl. repeat split.
    unfold is_hidden. apply bool_decide_eq_true_2, hidden_after_add.
  - intros [-> | ->]; [done|]. by rewrite andb_false_r.
Qed.

(** *** Repeating a query *)

Lemma filter_not_hidden_idemp (l : list jsstring) :
  filter (λ t, t ≠ hidden) (filter (λ t, t ≠ hidden) l)
  = filter (λ t, t ≠ hidden) l.
Proof.
  rewrite list_filter_filter. apply list_filter_iff. intros t. tauto.
Qed.

Lemma displayResults_idemp (results : list json) (p : page) :
  displayResults results (displayResults results p).2
  = displayResults results p.
Proof.
  rewrite !displayResults_eq. simpl. f_equal.
  unfold with_resultsDiv. simpl. f_equal. f_equal.
  destruct (rendered results).1; [|done].
  apply filter_not_hidden_idemp.
Qed.

(** C7. Running the [input] listener a second time on the same input,
    with the index unchanged, gives the same outcome, selects the same
    results and leaves the same page, region content and visibility
    included. *)
Theorem on_input_twice (v : jsstring) (p : page) :
  on_input v (on_input v p).2 = on_input v p ∧
  search (searchIndex (on_input v p).2) (toLowerCase v)
  = search (searchIndex p) (toLowerCase v).
Proof.
  split; [|by rewrite on_input_searchIndex].
  destruct (Nat.lt_ge_cases (length (toLowerCase v)) 2) as [Hlen|Hlen].
  - rewrite !on_input_gated by done. simpl. f_equal.
    unfold cleared_and_hidden, with_resultsDiv. simpl. f_equal. f_equal.
    by rewrite (bool_decide_eq_true_2 _ (hidden_after_add _)).
  - rewrite (on_input_open v (on_input v p).2) by done.
    rewrite on_input_searchIndex.
    rewrite (on_input_open v p) by done.
    destruct (search (searchIndex p) (toLowerCase v)) as [results|e];
      [|done].
    apply displayResults_idemp.
Qed.

(** *** The index is read only *)

(** C8. Neither the [input] listener nor the [click] listener changes
    the index: the value of [searchIndex], hence the length, the elements
    and the order of the sequence, is the same after as before. *)
Theorem index_never_mutated (p : page) (v : jsstring) (t : target) :
  searchIndex (on_input v p).2 = searchIndex p ∧
  searchIndex (on_click t p).2 = searchIndex p.
Proof.
  split; [apply on_input_searchIndex | apply on_click_searchIndex].
Qed.

(** *** A failed load *)

Lemma on_input_script_state (v : jsstring) (p : page) :
  script_state (on_input v p).2 = script_state p.
Proof.
  destruct (Nat.lt_ge_cases (length (toLowerCase v)) 2) as [Hlen|Hlen].
  - by rewrite on_input_gated.
  - rewrite on_input_open by done.
    destruct (search (searchIndex p) (toLowerCase v)); [|done].
    by rewrite displayResults_eq.
Qed.

Lemma on_click_script_state (t : target) (p : page) :
  script_state (on_click t p).2 = script_state p.
Proof.
  unfold on_click. by destruct (negb (in_searchInput t) && negb (in_resultsDiv t)).
Qed.

Lemma dispatch_user_event (p : page) (e : event) :
  user_event e → script_state (dispatch p e) = script_state p.
Proof.
  destruct e as [v|t|r]; simpl; [intros _ .. | done].
  - apply on_input_script_state.
  - apply on_click_script_state.
Qed.

(** Once the promise chain has settled, no event changes what the script
    keeps: a promise settles once. *)
Lemma dispatch_settled (p : page) (e : event) :
  pending p = false → script_state (dispatch p e) = script_state p.
Proof.
  intros Hp. destruct e as [v|t|r]; simpl.
  - apply on_input_script_state.
  - apply on_click_script_state.
  - by rewrite Hp.
Qed.

Lemma run_user_events (p : page) (es : list event) :
  Forall user_event es → script_state (run p es) = script_state p.
Proof.
  intros Hes. revert p. unfold run.
  induction Hes as [|e es He _ IH]; intros p; [done|].
  simpl. rewrite IH. by apply dispatch_user_event.
Qed.

Lemma run_settled (p : page) (es : list event) :
  pending p = false → script_state (run p es) = script_state p.
Proof.
  revert p. unfold run. induction es as [|e es IH]; intros p Hp; [done|].
  simpl. pose proof (dispatch_settled p e Hp) as He.
  rewrite IH, He; [done|].
  unfold script_state in He. injection He as _ _ _ ->. done.
Qed.

Lemma after_failure_script_state (host : container) (before : list event)
    (err : load_failure) :
  Forall user_event before →
  script_state (after_failure host before err)
  = (JArr [], [(lit "Failed to load search index", err)],
     [lit "search.json"], false).
Proof.
  intros Hb. unfold after_failure, run. rewrite foldl_app. simpl.
  pose proof (run_user_events (DOMContentLoaded host) before Hb) as Hs.
  unfold run, script_state in Hs. simpl in Hs.
  injection Hs as Hidx Hco Hrq Hpe.
  rewrite Hpe. unfold script_state. simpl. by rewrite Hidx, Hco, Hrq.
Qed.

(** C5. Whatever the user did while the fetch was under way, when the
    load fails (the request fails or the payload does not parse) the
    failure is reported once on the error console and the index stays
    the empty array.  After any further events the index is still empty,
    nothing more has been logged and no other request has been made;
    every query returns no result and the listener returns normally with
    no entry shown, whatever the length of the input. *)
Theorem load_failure_gives_no_results (host : container)
    (before after : list event) (err : load_failure) (v : jsstring) :
  Forall user_event before →
  console (after_failure host before err)
  = [(lit "Failed to load search index", err)] ∧
  searchIndex (after_failure host before err) = JArr [] ∧
  searchIndex (run (after_failure host before err) after) = JArr [] ∧
  console (run (after_failure host before err) after)
  = [(lit "Failed to load search index", err)] ∧
  requests (run (after_failure host before err) after)
  = [lit "search.json"] ∧
  search (searchIndex (run (after_failure host before err) after))
         (toLowerCase v) = Ok [] ∧
  (on_input v (run (after_failure host before err) after)).1 = Ok () ∧
  children (resultsDiv
    (on_input v (run (after_failure host before err) after)).2) = [].
Proof.
  intros Hb.
  pose proof (after_failure_script_state host before err Hb) as H1.
  assert (pending (after_failure host before err) = false) as Hpe
    by (unfold script_state in H1; by injection H1).
  pose proof (run_settled _ after Hpe) as H2. rewrite H1 in H2.
  unfold script_state in H1, H2.
  injection H1 as Hidx1 Hco1 _ _. injection H2 as Hidx2 Hco2 Hrq2 _.
  rewrite Hidx1, Hco1, Hidx2, Hco2, Hrq2. split_and!; try done.
  - destruct (Nat.lt_ge_cases (length (toLowerCase v)) 2) as [Hlen|Hlen].
    + by rewrite on_input_gated.
    + rewrite on_input_open, Hidx2 by done. done.
  - destruct (Nat.lt_ge_cases (length (toLowerCase v)) 2) as [Hlen|Hlen].
    + by rewrite on_input_gated.
    + rewrite on_input_open, Hidx2 by done. done.
Qed.

(** *** Normalization *)

Lemma string_field_document (title text url feed : jsstring) :
  string_field (document title text url feed) (lit "title") = Some title ∧
  string_field (document title text url feed) (lit "text") = Some text ∧
  string_field (document title text url feed) (lit "url") = Some url ∧
  string_field (document title text url feed) (lit "feed") = Some feed.
Proof. by vm_compute. Qed.

Lemma searchable_document (title text url feed : jsstring) :
  searchable (document title text url feed).
Proof.
  destruct (string_field_document title text url feed) as (Ht & Hx & _).
  split; eauto.
Qed.

Lemma contains_query_document (q title text url feed : jsstring) :
  contains_query q (document title text url feed)
  = includes (toLowerCase title) q || includes (toLowerCase text) q.
Proof.
  destruct (string_field_document title text url feed) as (Ht & Hx & _).
  unfold contains_query. by rewrite Ht, Hx.
Qed.

Lemma includes_refl (s : jsstring) : includes s s = true.
Proof. apply includes_spec. exists [], []. by rewrite app_nil_r. Qed.

Lemma includes_longer (s q : jsstring) :
  length s < length q → includes s q = false.
Proof.
  intros Hlen. apply not_true_is_false. intros (pre & post & ->)%includes_spec.
  rewrite !length_app in Hlen. lia.
Qed.

Lemma is_letter_ascii (c : code_unit) : is_letter c → is_ascii c.
Proof. unfold is_letter, is_ascii. lia. Qed.

(** C9. The listener lowercases the raw input and does nothing else to
    it: the gate measures the lowercased input and the containment test
    looks for the lowercased input as it is.  So a space followed by a
    letter has normalized length two and passes the gate, and it selects
    a document that holds the space and the letter, not one that holds
    the letter alone. *)
Theorem normalization_is_lowercasing (I : list json) (v : jsstring)
    (p p' : page) (c : code_unit) (url feed : jsstring) :
  searchIndex p = JArr I →
  Forall searchable I →
  is_letter c →
  searchIndex p' = JArr [document [c] [c] url feed;
                         document [32%N; c] [c] url feed] →
  on_input v p
  = (if length (toLowerCase v) <? 2 then (Ok (), cleared_and_hidden p)
     else displayResults
            (take 10 (filter (λ d, contains_query (toLowerCase v) d = true) I))
            p) ∧
  toLowerCase [32%N; c] = [32%N; ascii_lower c] ∧
  length (toLowerCase [32%N; c]) = 2 ∧
  contains_query (toLowerCase [32%N; c]) (document [c] [c] url feed)
  = false ∧
  contains_query (toLowerCase [32%N; c]) (document [32%N; c] [c] url feed)
  = true ∧
  on_input [32%N; c] p'
  = displayResults [document [32%N; c] [c] url feed] p'.
Proof.
  intros Hidx HI Hc Hidx'.
  assert (toLowerCase [32%N; c] = [32%N; ascii_lower c]) as Hsp.
  { rewrite toLowerCase_ascii; [done|].
    repeat constructor. by apply is_letter_ascii. }
  assert (toLowerCase [c] = [ascii_lower c]) as Hl.
  { rewrite toLowerCase_ascii; [done|].
    repeat constructor. by apply is_letter_ascii. }
  assert (contains_query (toLowerCase [32%N; c]) (document [c] [c] url feed)
          = false) as Hno.
  { rewrite contains_query_document, Hsp, Hl.
    by rewrite includes_longer by (simpl; lia). }
  assert (contains_query (toLowerCase [32%N; c])
            (document [32%N; c] [c] url feed) = true) as Hyes.
  { rewrite contains_query_document, Hsp. by rewrite includes_refl. }
  split_and!; try done.
  - destruct (Nat.ltb_spec (length (toLowerCase v)) 2) as [Hlen|Hlen].
    + by apply on_input_gated.
    + rewrite on_input_open, Hidx by done.
      by rewrite (search_searchable I v HI).
  - by rewrite Hsp.
  - rewrite on_input_open by (rewrite Hsp; simpl; lia).
    rewrite Hidx'.
    rewrite (search_searchable _ ([32%N; c]))
      by (repeat constructor; apply searchable_document).
    unfold first_ten_matches.
    rewrite filter_cons_False by congruence.
    by rewrite filter_cons_True by done.
Qed.

End Properties.

(** ** Further properties of the script *)

Section Further.
Context {B : Builtins}.

(** *** The filter on an index of any content *)

Lemma matches_title (query : jsstring) (d : json) :
  matches query d
  = match string_field d (lit "title") with
    | None => Throw TypeError
    | Some t =>
        if includes (toLowerCase t) query then Ok true
        else match string_field d (lit "text") with
             | None => Throw TypeError
             | Some x => Ok (includes (toLowerCase x) query)
             end
    end.
Proof.
  destruct d as [| | | | |props]; try done. unfold matches. simpl.
  destruct (own_property props (lit "title")) as [[| | |t| |]|]; try done.
  simpl. destruct (includes (toLowerCase t) query); [done|].
  by destruct (own_property props (lit "text")) as [[| | |x| |]|].
Qed.

(** X1. The callback of the filter throws exactly when the title of the
    entry is not a string, or the title does not contain the query and
    the text is not a string; it answers true exactly when the title is
    a string that contains the query, or title and text are strings and
    the text contains it.  The text is not looked at when the title
    matches. *)
Theorem callback_outcomes (query : jsstring) (d : json) :
  (matches query d = Throw TypeError ↔
     string_field d (lit "title") = None ∨
     ∃ t, string_field d (lit "title") = Some t ∧
          includes (toLowerCase t) query = false ∧
          string_field d (lit "text") = None) ∧
  (matches query d = Ok true ↔
     ∃ t, string_field d (lit "title") = Some t ∧
          (includes (toLowerCase t) query = true ∨
           ∃ x, string_field d (lit "text") = Some x ∧
                includes (toLowerCase x) query = true)).
Proof.
  rewrite matches_title.
  destruct (string_field d (lit "title")) as [t|].
  - destruct (includes (toLowerCase t) query) eqn:Et.
    + split; split; try done.
      * intros [? | (t' & [= <-] & ? & _)]; congruence.
      * intros _. exists t. eauto.
    + destruct (string_field d (lit "text")) as [x|].
      * split; split; try done.
        -- intros [? | (t' & _ & _ & ?)]; congruence.
        -- intros [= Ex]. exists t. split; [done|]. right. eauto.
        -- intros (t' & [= <-] & [? | (x' & [= <-] & Ex)]); congruence.
      * split; split; try done.
        -- intros _. right. exists t. eauto.
        -- intros (t' & [= <-] & [? | (x' & ? & _)]); congruence.
  - split; split; try done.
    + intros _. by left.
    + intros (t & ? & _). congruence.
Qed.

Lemma array_filter_ok (f : json → outcome bool) (l rs : list json) :
  array_filter f l = Ok rs → rs = filter (λ d, f d = Ok true) l.
Proof.
  revert rs. induction l as [|d l IH]; intros rs; simpl.
  - by intros [= <-].
  - destruct (f d) as [b|e] eqn:Ed; [|done]. simpl.
    destruct (array_filter f l) as [r'|e]; [|done]. simpl. intros [= <-].
    rewrite (IH r' eq_refl). destruct b.
    + by rewrite filter_cons_True.
    + rewrite filter_cons_False; [done | congruence].
Qed.

Lemma array_filter_throws_iff (f : json → outcome bool) (l : list json) :
  array_filter f l = Throw TypeError ↔ Exists (λ d, f d = Throw TypeError) l.
Proof.
  split; [|apply array_filter_throws].
  induction l as [|d l IH]; simpl; [done|].
  destruct (f d) as [b|[]] eqn:Ed; [|intros _; by left]. simpl.
  destruct (array_filter f l) as [r'|[]]; [done|]. intros _. right. by apply IH.
Qed.

(** X2. Whatever the entries of the index are, when the query returns it
    returns the first at most ten entries, in index order, on which the
    callback answers true; each of them has a string title. *)
Theorem search_on_any_index (items results : list json) (query : jsstring) :
  search (JArr items) query = Ok results →
  results = take 10 (filter (λ d, matches query d = Ok true) items) ∧
  length results ≤ 10 ∧
  results `sublist_of` items ∧
  ∀ d, d ∈ results → is_Some (string_field d (lit "title")).
Proof.
  unfold search. destruct (array_filter (matches query) items) as [r|e] eqn:Er;
    [|done].
  simpl. intros [= <-]. apply array_filter_ok in Er as ->. split_and!.
  - done.
  - rewrite length_take. lia.
  - etrans; [apply sublist_take | apply sublist_filter].
  - intros d Hd. apply subseteq_take, list_elem_of_filter in Hd as [Hd _].
    apply callback_outcomes in Hd as (t & Ht & _). eauto.
Qed.

(** X3. The query throws exactly when the index is not an array or the
    callback throws on one of its entries; the listener then throws the
    same exception before it touches the page, so that the region keeps
    the content and the visibility it had. *)
Theorem failed_filter_leaves_page (v : jsstring) (p : page) :
  2 ≤ length (toLowerCase v) →
  (search (searchIndex p) (toLowerCase v) = Throw TypeError ↔
     (∀ items, searchIndex p ≠ JArr items) ∨
     ∃ items, searchIndex p = JArr items ∧
              Exists (λ d, matches (toLowerCase v) d = Throw TypeError) items) ∧
  (search (searchIndex p) (toLowerCase v) = Throw TypeError →
     on_input v p = (Throw TypeError, p)).
Proof.
  intros Hgate. split.
  - destruct (searchIndex p) as [| | | |items|] eqn:Hidx; simpl;
      try (split; [intros _; by left | done]).
    destruct (array_filter (matches (toLowerCase v)) items) as [r|[]] eqn:Er;
      simpl.
    + split; [done|]. intros [Hno | (items' & [= <-] & Hex)].
      * by destruct (Hno items).
      * apply array_filter_throws_iff in Hex. congruence.
    + split; [|done]. intros _. right. exists items. split; [done|].
      by apply array_filter_throws_iff.
  - intros Hs. by rewrite on_input_open, Hs.
Qed.

(** *** Rendering *)

Lemma rendered_app_throw (ready rest : list json) (bad : json)
    (htmls : list jsstring) :
  Forall2 (λ d html, result_markup d = Ok html) ready htmls →
  result_markup bad = Throw TypeError →
  rendered (ready ++ bad :: rest) = (Throw TypeError, result_item <$> htmls).
Proof.
  intros Hready Hbad. induction Hready as [|d html ready htmls Hd _ IH]; simpl.
  - by rewrite Hbad.
  - by rewrite Hd, IH.
Qed.

Lemma rendered_ok (results : list json) :
  (rendered results).1 = Ok () →
  ∃ htmls, Forall2 (λ d html, result_markup d = Ok html) results htmls ∧
           (rendered results).2 = result_item <$> htmls.
Proof.
  induction results as [|d r IH]; simpl.
  - intros _. exists []. by split.
  - destruct (result_markup d) as [html|e] eqn:Ed; [|done]. simpl.
    intros (htmls & Hr & ->)%IH. exists (html :: htmls). split; [|done].
    by constructor.
Qed.

(** X4. When the markup of an entry cannot be built, [displayResults]
    throws in the middle of its loop: the region holds the entries that
    came before the failing one and nothing else, and its class list is
    as it was, so that a hidden region stays hidden. *)
Theorem render_failure_keeps_earlier_entries (ready rest : list json)
    (bad : json) (htmls : list jsstring) (p : page) :
  Forall2 (λ d html, result_markup d = Ok html) ready htmls →
  result_markup bad = Throw TypeError →
  (displayResults (ready ++ bad :: rest) p).1 = Throw TypeError ∧
  markup (resultsDiv (displayResults (ready ++ bad :: rest) p).2) = [] ∧
  children (resultsDiv (displayResults (ready ++ bad :: rest) p).2)
  = result_item <$> htmls ∧
  classList (resultsDiv (displayResults (ready ++ bad :: rest) p).2)
  = classList (resultsDiv p).
Proof.
  intros Hready Hbad. rewrite displayResults_eq.
  rewrite (rendered_app_throw _ _ _ _ Hready Hbad). simpl.
  split_and!; try done. by destruct ready.
Qed.

(** X5. When [displayResults] returns, the region is visible and holds
    one [div] of class [search-result-item] per result, in the order of
    the results; the placeholder markup is there exactly when there is
    no result. *)
Theorem displayed_entries (results : list json) (p : page) :
  (displayResults results p).1 = Ok () →
  is_hidden (resultsDiv (displayResults results p).2) = false ∧
  (∃ htmls,
     Forall2 (λ d html, result_markup d = Ok html) results htmls ∧
     children (resultsDiv (displayResults results p).2)
     = result_item <$> htmls) ∧
  length (children (resultsDiv (displayResults results p).2))
  = length results ∧
  (markup (resultsDiv (displayResults results p).2) = placeholder ↔
     results = []).
Proof.
  rewrite displayResults_eq. simpl. intros Hok.
  destruct (rendered_ok _ Hok) as (htmls & Hh & Hc). rewrite Hok, Hc.
  split_and!.
  - unfold is_hidden. apply bool_decide_eq_false_2, hidden_after_remove.
  - eauto.
  - rewrite length_fmap. symmetry. by eapply Forall2_length.
  - destruct results; simpl; [done|]. split; [|done].
    by vm_compute.
Qed.

(** *** Visibility and the class list *)

Lemma on_input_classList (v : jsstring) (p : page) :
  classList (resultsDiv (on_input v p).2) = classList (resultsDiv p) ∨
  classList (resultsDiv (on_input v p).2)
  = classList (resultsDiv p) ++ [hidden] ∧ hidden ∉ classList (resultsDiv p) ∨
  classList (resultsDiv (on_input v p).2)
  = filter (λ t, t ≠ hidden) (classList (resultsDiv p)).
Proof.
  destruct (Nat.lt_ge_cases (length (toLowerCase v)) 2) as [Hlen|Hlen].
  - rewrite on_input_gated by done. simpl.
    destruct (decide (hidden ∈ classList (resultsDiv p))) as [Hin|Hout].
    + left. by rewrite bool_decide_eq_true_2.
    + right. left. by rewrite bool_decide_eq_false_2.
  - rewrite on_input_open by done.
    destruct (search (searchIndex p) (toLowerCase v)); [|by left].
    rewrite displayResults_eq. simpl.
    destruct (rendered a).1; [right; by right | by left].
Qed.

Lemma on_click_classList (t : target) (p : page) :
  classList (resultsDiv (on_click t p).2) = classList (resultsDiv p) ∨
  classList (resultsDiv (on_click t p).2)
  = classList (resultsDiv p) ++ [hidden] ∧ hidden ∉ classList (resultsDiv p).
Proof.
  unfold on_click.
  destruct (negb (in_searchInput t) && negb (in_resultsDiv t)); [|by left].
  simpl. destruct (decide (hidden ∈ classList (resultsDiv p))) as [Hin|Hout].
  - left. by rewrite bool_decide_eq_true_2.
  - right. by rewrite bool_decide_eq_false_2.
Qed.

Lemma dispatch_classList (p : page) (e : event) :
  classList (resultsDiv (dispatch p e)) = classList (resultsDiv p) ∨
  classList (resultsDiv (dispatch p e))
  = classList (resultsDiv p) ++ [hidden] ∧ hidden ∉ classList (resultsDiv p) ∨
  classList (resultsDiv (dispatch p e))
  = filter (λ t, t ≠ hidden) (classList (resultsDiv p)).
Proof.
  destruct e as [v|t|r]; simpl.
  - apply on_input_classList.
  - destruct (on_click_classList t p) as [?|?]; eauto.
  - left. destruct (pending p); [|done]. by destruct r.
Qed.

(** X6. No event touches a class of the region other than [hidden]: any
    other class is on the region after the event exactly if it was
    before, and a class list without repetition stays so. *)
Theorem only_hidden_class_changes (p : page) (e : event) (tok : jsstring) :
  tok ≠ hidden →
  (tok ∈ classList (resultsDiv (dispatch p e)) ↔
   tok ∈ classList (resultsDiv p)) ∧
  (NoDup (classList (resultsDiv p)) →
   NoDup (classList (resultsDiv (dispatch p e)))).
Proof.
  intros Htok.
  destruct (dispatch_classList p e) as [-> | [[-> Hout] | ->]].
  - done.
  - split.
    + rewrite elem_of_app, list_elem_of_singleton. tauto.
    + intros Hnd. apply NoDup_app. split_and!; [done | | apply NoDup_singleton].
      intros x Hx ->%list_elem_of_singleton. done.
  - split.
    + rewrite list_elem_of_filter. tauto.
    + apply NoDup_filter.
Qed.

(** X7. When the [input] listener returns, the region is hidden exactly
    if the lowercased input has fewer than two code units. *)
Theorem hidden_iff_below_gate (v : jsstring) (p : page) :
  (on_input v p).1 = Ok () →
  is_hidden (resultsDiv (on_input v p).2) = (length (toLowerCase v) <? 2).
Proof.
  destruct (Nat.ltb_spec (length (toLowerCase v)) 2) as [Hlen|Hlen].
  - rewrite on_input_gated by done. simpl. intros _.
    apply bool_decide_eq_true_2, hidden_after_add.
  - rewrite on_input_open by done.
    destruct (search (searchIndex p) (toLowerCase v)) as [rs|e]; [|done].
    intros Hok. by apply displayed_entries.
Qed.

Lemma on_click_hidden (t : target) (p : page) :
  is_hidden (resultsDiv p) = true → on_click t p = (Ok (), p).
Proof.
  intros Hh%bool_decide_eq_true_1. unfold on_click.
  destruct (negb (in_searchInput t) && negb (in_resultsDiv t)); [|done].
  unfold classList_add, with_resultsDiv.
  rewrite bool_decide_eq_true_2 by done.
  by destruct p as [idx [m ch cl] co rq pe].
Qed.

(** X8. A click changes nothing at all when the region is already
    hidden, wherever it lands; so after a click outside the region, a
    further click has no effect. *)
Theorem click_on_hidden_region (t t' : target) (p : page) :
  (is_hidden (resultsDiv p) = true → on_click t p = (Ok (), p)) ∧
  (in_searchInput t = false → in_resultsDiv t = false →
   on_click t' (on_click t p).2 = (Ok (), (on_click t p).2)).
Proof.
  split; [apply on_click_hidden|].
  intros Hi Hr. apply on_click_hidden.
  unfold on_click. rewrite Hi, Hr. simpl.
  apply bool_decide_eq_true_2, hidden_after_add.
Qed.

(** *** One keystroke after another *)

Lemma on_input_same_index (v : jsstring) (p p' : page) :
  searchIndex p = searchIndex p' →
  (on_input v p).1 = (on_input v p').1 ∧
  ((on_input v p).1 = Ok () →
   markup (resultsDiv (on_input v p).2)
   = markup (resultsDiv (on_input v p').2) ∧
   children (resultsDiv (on_input v p).2)
   = children (resultsDiv (on_input v p').2) ∧
   is_hidden (resultsDiv (on_input v p).2)
   = is_hidden (resultsDiv (on_input v p').2)).
Proof.
  intros Hidx.
  destruct (Nat.lt_ge_cases (length (toLowerCase v)) 2) as [Hlen|Hlen].
  - rewrite !on_input_gated by done. simpl. split; [done|]. intros _.
    split_and!; try done. unfold is_hidden. simpl.
    by rewrite !(bool_decide_eq_true_2 _ (hidden_after_add _)).
  - rewrite !on_input_open by done. rewrite <-Hidx.
    destruct (search (searchIndex p) (toLowerCase v)) as [rs|e]; [|done].
    rewrite !displayResults_eq. simpl. split; [done|]. intros Hok.
    rewrite Hok. split_and!; try done. unfold is_hidden. simpl.
    by rewrite !(bool_decide_eq_false_2 _ (hidden_after_remove _)).
Qed.

(** X9. What the [input] listener shows is computed afresh from the
    index and the input: whatever the user typed or clicked before, the
    listener has the same outcome, and when it returns, the region has
    the same content and the same visibility as if nothing had happened
    before. *)
Theorem input_forgets_earlier_events (p : page) (es : list event)
    (v : jsstring) :
  Forall user_event es →
  (on_input v (run p es)).1 = (on_input v p).1 ∧
  ((on_input v p).1 = Ok () →
   markup (resultsDiv (on_input v (run p es)).2)
   = markup (resultsDiv (on_input v p).2) ∧
   children (resultsDiv (on_input v (run p es)).2)
   = children (resultsDiv (on_input v p).2) ∧
   is_hidden (resultsDiv (on_input v (run p es)).2)
   = is_hidden (resultsDiv (on_input v p).2)).
Proof.
  intros Hes.
  pose proof (run_user_events_searchIndex p es Hes) as Hidx.
  destruct (on_input_same_index v (run p es) p Hidx) as [Ho Hc].
  split; [done|]. intros Hok. apply Hc. by rewrite Ho.
Qed.


(** X11. On ASCII text the search ignores case: two inputs that differ
    only in the case of their letters make the listener do the same, and
    two entries whose titles and texts differ only in case are selected
    by the same queries. *)
Theorem ascii_case_is_ignored (v v' : jsstring) (p : page)
    (q t t' x x' u f u' f' : jsstring) :
  Forall is_ascii v → Forall is_ascii v' →
  ascii_lower <$> v = ascii_lower <$> v' →
  Forall is_ascii t → Forall is_ascii t' →
  ascii_lower <$> t = ascii_lower <$> t' →
  Forall is_ascii x → Forall is_ascii x' →
  ascii_lower <$> x = ascii_lower <$> x' →
  on_input v p = on_input v' p ∧
  matches q (document t x u f) = matches q (document t' x' u' f').
Proof.
  intros Hv Hv' Ev Ht Ht' Et Hx Hx' Ex.
  split.
  - unfold on_input.
    by rewrite (toLowerCase_ascii v), (toLowerCase_ascii v'), Ev.
  - rewrite !matches_title.
    destruct (string_field_document t x u f) as (-> & -> & _).
    destruct (string_field_document t' x' u' f') as (-> & -> & _).
    rewrite (toLowerCase_ascii t), (toLowerCase_ascii t') by done.
    rewrite (toLowerCase_ascii x), (toLowerCase_ascii x') by done.
    by rewrite Et, Ex.
Qed.

(** *** The life of the index *)

Lemma load_invariant_start (host : container) :
  load_invariant (DOMContentLoaded host).
Proof. by split_and!. Qed.

Lemma load_invariant_dispatch (p : page) (e : event) :
  load_invariant p → load_invariant (dispatch p e).
Proof.
  intros Hinv. pose proof Hinv as (Hrq & Hpend & Hset).
  assert (user_event e → load_invariant (dispatch p e)) as Huser.
  { intros He. pose proof (dispatch_user_event p e He) as Hs.
    unfold script_state in Hs. injection Hs as Hi Hc Hr Hp.
    unfold load_invariant. by rewrite Hi, Hc, Hr, Hp. }
  destruct e as [v|t|r]; [by apply Huser | by apply Huser |].
  - simpl.
    destruct (pending p) eqn:Hp; [|done].
    destruct (Hpend eq_refl) as [Hi Hc].
    destruct r as [err|data]; simpl; (split_and!; [done | done |]); intros _.
    + right. exists err. by rewrite Hc.
    + by left.
Qed.

Lemma load_invariant_run (p : page) (es : list event) :
  load_invariant p → load_invariant (run p es).
Proof.
  revert p. unfold run. induction es as [|e es IH]; intros p Hp; [done|].
  simpl. by apply IH, load_invariant_dispatch.
Qed.

(** X12. Whatever events come, in whatever order: the script has made
    the one request for [search.json] and no other; as long as the load
    is under way the index is the empty array; the error console has at
    most one entry, and when it has one the index is the empty array. *)
Theorem one_request_one_report (host : container) (es : list event) :
  requests (run (DOMContentLoaded host) es) = [lit "search.json"] ∧
  (pending (run (DOMContentLoaded host) es) = true →
   searchIndex (run (DOMContentLoaded host) es) = JArr []) ∧
  length (console (run (DOMContentLoaded host) es)) ≤ 1 ∧
  (console (run (DOMContentLoaded host) es) ≠ [] →
   searchIndex (run (DOMContentLoaded host) es) = JArr []).
Proof.
  destruct (load_invariant_run _ es (load_invariant_start host))
    as (Hrq & Hpend & Hset).
  split_and!.
  - done.
  - intros Hp. by apply Hpend.
  - destruct (pending (run (DOMContentLoaded host) es)) eqn:Hp.
    + destruct (Hpend eq_refl) as [_ ->]. simpl. lia.
    + destruct (Hset eq_refl) as [-> | (err & -> & _)]; simpl; lia.
  - intros Hne.
    destruct (pending (run (DOMContentLoaded host) es)) eqn:Hp.
    + by apply Hpend.
    + by destruct (Hset eq_refl) as [? | (err & _ & ?)].
Qed.

(** X13. When the load succeeds, the index becomes the payload as it
    was parsed, unchecked, whatever the user did while the fetch was
    under way; after that no event changes it, and nothing is logged. *)
Theorem load_success_stores_payload (host : container)
    (before after : list event) (data : json) :
  Forall user_event before →
  searchIndex (run (DOMContentLoaded host)
                   (before ++ FetchSettled (Parsed data) :: after)) = data ∧
  console (run (DOMContentLoaded host)
               (before ++ FetchSettled (Parsed data) :: after)) = [] ∧
  pending (run (DOMContentLoaded host)
               (before ++ FetchSettled (Parsed data) :: after)) = false.
Proof.
  intros Hb. unfold run. rewrite foldl_app. simpl.
  pose proof (run_user_events (DOMContentLoaded host) before Hb) as Hs.
  unfold run, script_state in Hs. simpl in Hs.
  injection Hs as Hidx Hco Hrq Hpe. rewrite Hpe.
  pose proof (run_settled
    (fetch_settled (Parsed data) (foldl dispatch (DOMContentLoaded host) before))
    after eq_refl) as Hs.
  unfold run, script_state in Hs. simpl in Hs.
  injection Hs as Hidx' Hco' _ Hpe'. by rewrite Hidx', Hco', Hpe', Hco.
Qed.

End Further.

(** ** The script at work on the sample pages *)

Ltac by_evaluation := apply (bool_decide_unpack _); vm_compute; exact I.

(** Scenario A: one document about cats, query [cat]. *)
Example scenario_single_match :
  search (JArr [episode_one]) (toLowerCase (lit "cat")) = Ok [episode_one].
Proof. by vm_compute. Qed.

(** Scenario C: fifteen documents match, the first ten are returned. *)
Example scenario_fifteen_matches :
  search (JArr (the_episodes 15)) (toLowerCase (lit "the"))
  = Ok (the_episodes 10).
Proof. by vm_compute. Qed.

(** Scenario D: nothing matches in a non-empty index. *)
Example scenario_no_match :
  (on_input (lit "xyz123") (loaded [episode_one])).1 = Ok () ∧
  resultsDiv (on_input (lit "xyz123") (loaded [episode_one])).2
  = {| markup := placeholder; children := [];
       classList := [lit "search-results"] |}.
Proof. by vm_compute. Qed.

(** Scenario E: a click outside hides the shown results, the next
    keystroke shows the region again. *)
Example scenario_click_then_type :
  is_hidden (resultsDiv (run (loaded [episode_one])
    [InputEvent (lit "cat");
     ClickEvent {| in_searchInput := false; in_resultsDiv := false |}]))
  = true ∧
  is_hidden (resultsDiv (run (loaded [episode_one])
    [InputEvent (lit "cat");
     ClickEvent {| in_searchInput := false; in_resultsDiv := false |};
     InputEvent (lit "cats")]))
  = false.
Proof. by vm_compute. Qed.

(** Markup in a title goes into the entry as it is. *)
Example markup_in_title_is_kept :
  result_markup (document (lit "<b>x</b>") (lit "t") (lit "/e") (lit "F"))
  = Ok (lit "<a href=" ++ dquote ++ lit "/e" ++ dquote
        ++ lit "><b>x</b></a><span class=" ++ dquote ++ lit "search-feed"
        ++ dquote ++ lit ">F</span>").
Proof. by vm_compute. Qed.

(** Counterexample to the wording of the selection claim: of eleven
    matching documents the eleventh is left out, although no more than
    ten earlier documents match (exactly ten do). *)
Lemma eleventh_match_left_out :
  Forall searchable (the_episodes 11) ∧
  2 ≤ length (lit "the") ∧
  the_episodes 11 = the_episodes 10 ++ [the_episode 10] ∧
  contains_query (toLowerCase (lit "the")) (the_episode 10) = true ∧
  search (JArr (the_episodes 11)) (toLowerCase (lit "the"))
  = Ok (the_episodes 10) ∧
  (the_episode 10 ∉ the_episodes 10) ∧
  ¬ (10 < matches_before (lit "the") (the_episodes 10)).
Proof.
  split_and!.
  - by_evaluation.
  - vm_compute. lia.
  - by vm_compute.
  - by vm_compute.
  - by vm_compute.
  - apply not_elem_of_by_title. by_evaluation.
  - vm_compute. lia.
Qed.

Lemma search_returns_first_ten_witness :
  Forall searchable [episode_one] ∧
  2 ≤ length (lit "cat") ∧
  searchIndex (loaded [episode_one]) = JArr [episode_one] ∧
  search (searchIndex (loaded [episode_one])) (toLowerCase (lit "cat"))
  = Ok (first_ten_matches [episode_one] (lit "cat")) ∧
  first_ten_matches [episode_one] (lit "cat") `sublist_of` [episode_one].
Proof.
  assert (Forall searchable [episode_one]) as H1 by by_evaluation.
  assert (2 ≤ length (lit "cat")) as H2 by (vm_compute; lia).
  assert (searchIndex (loaded [episode_one]) = JArr [episode_one]) as H3
    by reflexivity.
  pose proof (search_returns_first_ten _ _ _ H1 H2 H3) as (Hs & _ & _ & _ & _ & Ho).
  split_and!; assumption.
Defined.

(** Counterexample to the wording of the missing-field claim: an entry
    without title makes the listener throw, and an entry without feed is
    rendered with the text [undefined], not with a blank. *)
Lemma missing_title_throws :
  missing_field untitled (lit "title") ∧
  2 ≤ length (lit "cat") ∧
  on_input (lit "cat") (loaded [untitled])
  = (Throw TypeError, loaded [untitled]) ∧
  missing_field unlabelled (lit "feed") ∧
  children (resultsDiv (on_input (lit "cat") (loaded [unlabelled])).2)
  = [{| className := lit "search-result-item";
        innerHTML := lit "<a href=" ++ dquote ++ lit "/e3" ++ dquote
          ++ lit ">Cat tales</a><span class=" ++ dquote ++ lit "search-feed"
          ++ dquote ++ lit ">undefined</span>" |}].
Proof.
  split_and!.
  - by vm_compute.
  - vm_compute. lia.
  - by vm_compute.
  - by vm_compute.
  - by vm_compute.
Qed.

Lemma missing_field_behaviour_witness :
  searchIndex (loaded [episode_one; unlabelled])
  = JArr [episode_one; unlabelled] ∧
  2 ≤ length (lit "cat") ∧
  Forall searchable [episode_one; unlabelled] ∧
  Forall (λ d, string_or_missing d (lit "url") ∧
               string_or_missing d (lit "feed")) [episode_one; unlabelled] ∧
  (on_input (lit "cat") (loaded [episode_one; unlabelled])).1 = Ok () ∧
  children (resultsDiv
    (on_input (lit "cat") (loaded [episode_one; unlabelled])).2)
  = entry_of <$> first_ten_matches [episode_one; unlabelled] (lit "cat").
Proof.
  assert (searchIndex (loaded [episode_one; unlabelled])
          = JArr [episode_one; unlabelled]) as H1 by reflexivity.
  assert (2 ≤ length (lit "cat")) as H2 by (vm_compute; lia).
  assert (Forall searchable [episode_one; unlabelled]) as H3 by by_evaluation.
  assert (Forall (λ d, string_or_missing d (lit "url") ∧
                       string_or_missing d (lit "feed"))
                 [episode_one; unlabelled]) as H4.
  { by_evaluation. }
  destruct (missing_field_behaviour _ _ _ H1 H2) as (Hok & _ & _).
  destruct (Hok H3 H4) as (Ho & Hc & _).
  split_and!; assumption.
Defined.

Lemma short_query_clears_and_hides_witness :
  length (toLowerCase (lit "C")) < 2 ∧
  (on_input (lit "C") (loaded [episode_one])).1 = Ok () ∧
  children (resultsDiv (on_input (lit "C") (loaded [episode_one])).2) = [] ∧
  is_hidden (resultsDiv (on_input (lit "C") (loaded [episode_one])).2) = true.
Proof.
  assert (length (toLowerCase (lit "C")) < 2) as H1 by (vm_compute; lia).
  destruct (short_query_clears_and_hides (lit "C") (loaded [episode_one]) H1)
    as (Ho & _ & Hc & Hh & _).
  split_and!; assumption.
Defined.

Lemma empty_index_placeholder_witness :
  searchIndex (DOMContentLoaded host0) = JArr [] ∧
  2 ≤ length (lit "cat") ∧
  search (searchIndex (DOMContentLoaded host0)) (toLowerCase (lit "cat"))
  = Ok [] ∧
  markup (resultsDiv (on_input (lit "cat") (DOMContentLoaded host0)).2)
  = placeholder ∧
  is_hidden (resultsDiv (on_input (lit "cat") (DOMContentLoaded host0)).2)
  = false.
Proof.
  assert (searchIndex (DOMContentLoaded host0) = JArr []) as H1
    by reflexivity.
  assert (2 ≤ length (lit "cat")) as H2 by (vm_compute; lia).
  destruct (empty_index_placeholder (lit "cat") (DOMContentLoaded host0) H1 H2)
    as (Hs & _ & Hm & _ & Hh & _).
  split_and!; assumption.
Defined.

Lemma load_failure_gives_no_results_witness :
  Forall user_event [InputEvent (lit "ca")] ∧
  console (after_failure host0 [InputEvent (lit "ca")] MalformedPayload)
  = [(lit "Failed to load search index", MalformedPayload)] ∧
  requests (run (after_failure host0 [InputEvent (lit "ca")] MalformedPayload)
                [FetchSettled (Parsed (JArr [episode_one]))])
  = [lit "search.json"] ∧
  search (searchIndex
            (run (after_failure host0 [InputEvent (lit "ca")] MalformedPayload)
                 [FetchSettled (Parsed (JArr [episode_one]))]))
         (toLowerCase (lit "cat")) = Ok [].
Proof.
  assert (Forall user_event [InputEvent (lit "ca")]) as H1
    by (repeat constructor).
  destruct (load_failure_gives_no_results host0 [InputEvent (lit "ca")]
              [FetchSettled (Parsed (JArr [episode_one]))]
              MalformedPayload (lit "cat") H1)
    as (Hc & _ & _ & _ & Hr & Hs & _).
  split_and!; assumption.
Defined.

Lemma click_outside_hides_witness :
  is_hidden (resultsDiv
    (on_click {| in_searchInput := false; in_resultsDiv := false |}
              (on_input (lit "cat") (loaded [episode_one])).2).2) = true ∧
  children (resultsDiv
    (on_click {| in_searchInput := false; in_resultsDiv := false |}
              (on_input (lit "cat") (loaded [episode_one])).2).2)
  = children (resultsDiv (on_input (lit "cat") (loaded [episode_one])).2) ∧
  on_click {| in_searchInput := false; in_resultsDiv := true |}
           (on_input (lit "cat") (loaded [episode_one])).2
  = (Ok (), (on_input (lit "cat") (loaded [episode_one])).2).
Proof.
  destruct (click_outside_hides
              {| in_searchInput := false; in_resultsDiv := false |}
              (on_input (lit "cat") (loaded [episode_one])).2)
    as (Hout & _).
  destruct (Hout (conj eq_refl eq_refl)) as (_ & Hh & _ & Hc).
  destruct (click_outside_hides
              {| in_searchInput := false; in_resultsDiv := true |}
              (on_input (lit "cat") (loaded [episode_one])).2)
    as (_ & Hin).
  split_and!; [assumption | assumption | exact (Hin (or_intror eq_refl))].
Defined.

Lemma normalization_is_lowercasing_witness :
  searchIndex (loaded [episode_one]) = JArr [episode_one] ∧
  Forall searchable [episode_one] ∧
  is_letter 65%N ∧
  searchIndex (loaded [document [65%N] [65%N] (lit "/a") (lit "F");
                       document [32%N; 65%N] [65%N] (lit "/a") (lit "F")])
  = JArr [document [65%N] [65%N] (lit "/a") (lit "F");
          document [32%N; 65%N] [65%N] (lit "/a") (lit "F")] ∧
  length (toLowerCase [32%N; 65%N]) = 2 ∧
  on_input [32%N; 65%N]
    (loaded [document [65%N] [65%N] (lit "/a") (lit "F");
             document [32%N; 65%N] [65%N] (lit "/a") (lit "F")])
  = displayResults [document [32%N; 65%N] [65%N] (lit "/a") (lit "F")]
      (loaded [document [65%N] [65%N] (lit "/a") (lit "F");
               document [32%N; 65%N] [65%N] (lit "/a") (lit "F")]).
Proof.
  assert (searchIndex (loaded [episode_one]) = JArr [episode_one]) as H1
    by reflexivity.
  assert (Forall searchable [episode_one]) as H2 by by_evaluation.
  assert (is_letter 65%N) as H3 by (unfold is_letter; lia).
  assert (searchIndex
            (loaded [document [65%N] [65%N] (lit "/a") (lit "F");
                     document [32%N; 65%N] [65%N] (lit "/a") (lit "F")])
          = JArr [document [65%N] [65%N] (lit "/a") (lit "F");
                  document [32%N; 65%N] [65%N] (lit "/a") (lit "F")]) as H4
    by reflexivity.
  destruct (normalization_is_lowercasing [episode_one] (lit "cat")
              (loaded [episode_one]) _ 65%N (lit "/a") (lit "F") H1 H2 H3 H4)
    as (_ & _ & Hl & _ & _ & Hi).
  split_and!; assumption.
Defined.

Lemma entry_markup_interpolates_verbatim_witness :
  missing_field unlabelled (lit "feed") ∧
  get_prop unlabelled (lit "feed") ≫= interpolate = Ok (lit "undefined") ∧
  string_field unlabelled (lit "title") = Some (lit "Cat tales") ∧
  get_prop unlabelled (lit "title") ≫= interpolate = Ok (lit "Cat tales").
Proof.
  assert (missing_field unlabelled (lit "feed")) as H1 by (by vm_compute).
  assert (string_field unlabelled (lit "title") = Some (lit "Cat tales"))
    as H2 by (by vm_compute).
  destruct (entry_markup_interpolates_verbatim unlabelled)
    as (_ & Hs & Hm & _).
  split_and!; [assumption | exact (Hm _ H1) | assumption | exact (Hs _ _ H2)].
Defined.

(** A payload that parses, but not to an array, is stored as it is: the
    load has not failed, and the next query of two characters or more
    throws where it calls [filter]. *)
Example object_payload_makes_queries_throw :
  console (run (DOMContentLoaded host0) [FetchSettled (Parsed (JObj []))])
  = [] ∧
  (on_input (lit "cat")
     (run (DOMContentLoaded host0) [FetchSettled (Parsed (JObj []))])).1
  = Throw TypeError.
Proof. by vm_compute. Qed.

(** ** The further properties on the sample pages *)

Lemma search_on_any_index_witness :
  search (JArr [textless; episode_one]) (lit "cat")
  = Ok [textless; episode_one] ∧
  length [textless; episode_one] ≤ 10 ∧
  [textless; episode_one] `sublist_of` [textless; episode_one].
Proof.
  assert (search (JArr [textless; episode_one]) (lit "cat")
          = Ok [textless; episode_one]) as H1 by (by vm_compute).
  destruct (search_on_any_index _ _ _ H1) as (_ & Hl & Hs & _).
  split_and!; assumption.
Defined.

Lemma failed_filter_leaves_page_witness :
  2 ≤ length (toLowerCase (lit "cat")) ∧
  search (searchIndex (loaded [episode_one; untitled])) (toLowerCase (lit "cat"))
  = Throw TypeError ∧
  on_input (lit "cat") (loaded [episode_one; untitled])
  = (Throw TypeError, loaded [episode_one; untitled]).
Proof.
  assert (2 ≤ length (toLowerCase (lit "cat"))) as H1 by (vm_compute; lia).
  assert (search (searchIndex (loaded [episode_one; untitled]))
                 (toLowerCase (lit "cat")) = Throw TypeError) as H2
    by (by vm_compute).
  destruct (failed_filter_leaves_page (lit "cat")
              (loaded [episode_one; untitled]) H1) as (_ & Hp).
  split_and!; [assumption | assumption | exact (Hp H2)].
Defined.

Lemma render_failure_keeps_earlier_entries_witness :
  Forall2 (λ d html, result_markup d = Ok html) [episode_one]
    [entry_html (lit "/e1") (lit "Episode One") (lit "ShowA")] ∧
  result_markup stubborn = Throw TypeError ∧
  (on_input (lit "cat") (loaded [episode_one; stubborn; textless])).1
  = Throw TypeError ∧
  children (resultsDiv
    (displayResults ([episode_one] ++ stubborn :: [textless])
                    (loaded [episode_one; stubborn; textless])).2)
  = result_item
    <$> [entry_html (lit "/e1") (lit "Episode One") (lit "ShowA")] ∧
  classList (resultsDiv
    (displayResults ([episode_one] ++ stubborn :: [textless])
                    (loaded [episode_one; stubborn; textless])).2)
  = classList (resultsDiv (loaded [episode_one; stubborn; textless])).
Proof.
  assert (Forall2 (λ d html, result_markup d = Ok html) [episode_one]
            [entry_html (lit "/e1") (lit "Episode One") (lit "ShowA")]) as H1
    by (repeat constructor).
  assert (result_markup stubborn = Throw TypeError) as H2 by (by vm_compute).
  destruct (render_failure_keeps_earlier_entries [episode_one] [textless]
              stubborn _ (loaded [episode_one; stubborn; textless]) H1 H2)
    as (_ & _ & Hc & Hl).
  split_and!; [assumption | assumption | by vm_compute | assumption
              | assumption].
Defined.

Lemma displayed_entries_witness :
  (displayResults [episode_one; textless] (loaded [episode_one; textless])).1
  = Ok () ∧
  length (children (resultsDiv
    (displayResults [episode_one; textless]
                    (loaded [episode_one; textless])).2)) = 2 ∧
  is_hidden (resultsDiv
    (displayResults [episode_one; textless]
                    (loaded [episode_one; textless])).2) = false.
Proof.
  assert ((displayResults [episode_one; textless]
             (loaded [episode_one; textless])).1 = Ok ()) as H1
    by (by vm_compute).
  destruct (displayed_entries _ _ H1) as (Hh & _ & Hl & _).
  split_and!; assumption.
Defined.

Lemma only_hidden_class_changes_witness :
  lit "search-results" ≠ hidden ∧
  (lit "search-results"
     ∈ classList (resultsDiv
         (dispatch (loaded [episode_one]) (InputEvent (lit "cat")))) ↔
   lit "search-results" ∈ classList (resultsDiv (loaded [episode_one]))).
Proof.
  assert (lit "search-results" ≠ hidden) as H1 by (by vm_compute).
  destruct (only_hidden_class_changes (loaded [episode_one])
              (InputEvent (lit "cat")) _ H1) as (Hiff & _).
  split; assumption.
Defined.

Lemma hidden_iff_below_gate_witness :
  (on_input (lit "cat") (loaded [episode_one])).1 = Ok () ∧
  is_hidden (resultsDiv (on_input (lit "cat") (loaded [episode_one])).2)
  = (length (toLowerCase (lit "cat")) <? 2).
Proof.
  assert ((on_input (lit "cat") (loaded [episode_one])).1 = Ok ()) as H1
    by (by vm_compute).
  split; [assumption | exact (hidden_iff_below_gate _ _ H1)].
Defined.

Lemma input_forgets_earlier_events_witness :
  Forall user_event
    [InputEvent (lit "c");
     ClickEvent {| in_searchInput := false; in_resultsDiv := false |}] ∧
  (on_input (lit "cat")
     (run (loaded [episode_one])
        [InputEvent (lit "c");
         ClickEvent {| in_searchInput := false; in_resultsDiv := false |}])).1
  = (on_input (lit "cat") (loaded [episode_one])).1.
Proof.
  assert (Forall user_event
            [InputEvent (lit "c");
             ClickEvent {| in_searchInput := false; in_resultsDiv := false |}])
    as H1 by (repeat constructor).
  destruct (input_forgets_earlier_events (loaded [episode_one]) _
              (lit "cat") H1) as (Ho & _).
  split; assumption.
Defined.


Lemma ascii_case_is_ignored_witness :
  on_input (lit "CaT") (loaded [episode_one])
  = on_input (lit "cat") (loaded [episode_one]) ∧
  matches (lit "cat") (document (lit "CATS") (lit "Talk") (lit "/a") (lit "F"))
  = matches (lit "cat") (document (lit "cats") (lit "talk") (lit "/b") (lit "G")).
Proof.
  apply (ascii_case_is_ignored (lit "CaT") (lit "cat") (loaded [episode_one])
           (lit "cat") (lit "CATS") (lit "cats") (lit "Talk") (lit "talk")
           (lit "/a") (lit "F") (lit "/b") (lit "G"));
    first [ by_evaluation | by vm_compute ].
Defined.

Lemma load_success_stores_payload_witness :
  Forall user_event [InputEvent (lit "ca")] ∧
  searchIndex (run (DOMContentLoaded host0)
    ([InputEvent (lit "ca")]
     ++ FetchSettled (Parsed (JArr [episode_one]))
     :: [FetchSettled (Rejected NetworkError)]))
  = JArr [episode_one] ∧
  console (run (DOMContentLoaded host0)
    ([InputEvent (lit "ca")]
     ++ FetchSettled (Parsed (JArr [episode_one]))
     :: [FetchSettled (Rejected NetworkError)]))
  = [].
Proof.
  assert (Forall user_event [InputEvent (lit "ca")]) as H1
    by (repeat constructor).
  destruct (load_success_stores_payload host0 [InputEvent (lit "ca")]
              [FetchSettled (Rejected NetworkError)] (JArr [episode_one]) H1)
    as (Hi & Hc & _).
  split_and!; assumption.
Defined.

Lemma click_on_hidden_region_witness :
  is_hidden (resultsDiv (loaded [episode_one])) = true ∧
  on_click {| in_searchInput := false; in_resultsDiv := false |}
           (loaded [episode_one])
  = (Ok (), loaded [episode_one]).
Proof.
  assert (is_hidden (resultsDiv (loaded [episode_one])) = true) as H1
    by (by vm_compute).
  destruct (click_on_hidden_region
              {| in_searchInput := false; in_resultsDiv := false |}
              {| in_searchInput := false; in_resultsDiv := false |}
              (loaded [episode_one])) as (Hh & _).
  split; [assumption | exact (Hh H1)].
Defined.
